(** * ostree-remount: the boot-time remount helper of OSTree

    A shallow embedding of [src/switchroot/ostree-remount.c] and the
    properties of its three functions [do_remount],
    [sysroot_is_configured_ro] and [main].

    The program is a straight-line sequence of system calls.  It is modelled
    in a small monad [Proc] that threads the state of the machine, records
    every system call together with its result in a trace, and stops at
    [exit] and [err]. *)

From stdpp Require Import base strings gmap list.
From Stdlib Require Import ZArith.

Open Scope Z_scope.

(** ** Constants of the C library and of Linux *)

Module Consts.
(** <sys/mount.h> *)
Definition MS_RDONLY : Z := 1.
Definition MS_REMOUNT : Z := 32.
Definition MS_BIND : Z := 4096.
Definition MS_REC : Z := 16384.
Definition MS_SILENT : Z := 32768.
Definition MS_PRIVATE : Z := 262144.
(** <sys/statvfs.h> *)
Definition ST_RDONLY : Z := 1.
(** <sys/stat.h>: 0170000 and 0120000 *)
Definition S_IFMT : Z := 61440.
Definition S_IFLNK : Z := 40960.
(** <errno.h>, <stdlib.h> *)
Definition EINVAL : Z := 22.
Definition EXIT_SUCCESS : Z := 0.
Definition EXIT_FAILURE : Z := 1.
End Consts.
Export Consts.

(** [S_ISLNK (m)] is [((m) & S_IFMT) == S_IFLNK]. *)
Definition S_ISLNK (st_mode : Z) : bool := Z.land st_mode S_IFMT =? S_IFLNK.

(** The newline character that ends the lines written by [printf] and [puts]. *)
Definition nl : string := String (Ascii.ascii_of_nat 10) EmptyString.

(** ** The machine *)

(** A key file as GLib holds it once loaded: group, then key, then the raw
    value.  [g_key_file_get_boolean] answers [TRUE] for the values [true] and
    [1]; a missing group, a missing key and a value that is not a boolean all
    give [FALSE] (the error is dropped: the caller passes [NULL]). *)
Definition GKeyFile : Type := gmap string (gmap string string).

Definition g_key_file_get_boolean (keyfile : GKeyFile) (group key : string) : bool :=
  match keyfile !! group ≫= (λ g, g !! key) with
  | Some v => bool_decide (v = "true" ∨ v = "1")
  | None => false
  end.

(** What [stat] and [g_key_file_load_from_file] see at a path: a file that
    does not load as a key file, or one that does. *)
Inductive FileContent : Type :=
| Unparseable
| KeyFileContent (keyfile : GKeyFile).

(** The mount backend: what the kernel answers to the calls of this program.
    [kernel_lstat] gives [st_mode], [kernel_statvfs] gives [f_flag], both
    [None] when the call fails; [kernel_mount] gives [None] for 0 and
    [Some errno] for -1, with the mount table that results.  [kernel_touch]
    and [kernel_readonly_probe] stand for the two helpers of
    [ostree-mount-util.h]: the marker step and the probe of a path's
    filesystem. *)
Class MountBackend (K : Type) : Type := {
  kernel_lstat : K → string → option Z;
  kernel_statvfs : K → string → option Z;
  kernel_mount : K → string → string → Z → option Z * K;
  kernel_touch : K → K;
  kernel_readonly_probe : K → string → bool;
}.

Record World (K : Type) : Type := mkWorld {
  files : gmap string FileContent;
  kernel : K;
}.
Arguments mkWorld {K} _ _.
Arguments files {K} _.
Arguments kernel {K} _.

(** What is at a path, if anything. *)
Definition file_at {K} (w : World K) (path : string) : option FileContent :=
  files w !! path.

(** One entry of the trace per call that leaves the process, with its result. *)
Inductive Event : Type :=
| EvTouchRunOstree
| EvLstat (path : string) (st_mode : option Z)
| EvStatvfs (path : string) (f_flag : option Z)
| EvMount (source target : string) (flags : Z) (errno : option Z)
| EvReadonlyProbe (path : string) (readonly : bool)
| EvStat (path : string) (ok : bool)
| EvKeyFileLoad (path : string) (ok : bool)
| EvStdout (text : string)
| EvStderr (text : string) (errno : Z).

(** A procedure either returns to its caller or ends the process. *)
Inductive Result (A : Type) : Type :=
| Returned (a : A)
| Exited (status : Z).
Arguments Returned {A} _.
Arguments Exited {A} _.

Definition Proc (K A : Type) : Type := World K → list Event * Result A * World K.

Definition ret {K A} (a : A) : Proc K A := λ w, ([], Returned a, w).

Definition bind {K A B} (m : Proc K A) (f : A → Proc K B) : Proc K B :=
  λ w,
    match m w with
    | (t1, Returned a, w1) =>
        match f a w1 with
        | (t2, r, w2) => (t1 ++ t2, r, w2)
        end
    | (t1, Exited status, w1) => (t1, Exited status, w1)
    end.

Declare Scope proc_scope.
Delimit Scope proc_scope with proc.
Notation "'let*' x ':=' m 'in' k" := (bind m (λ x, k))
  (at level 10, x name, m at level 100, k at level 200, only parsing) : proc_scope.
Notation "m ';;;' k" := (bind m (λ _, k))
  (at level 100, k at level 200, right associativity, only parsing) : proc_scope.

Definition trace_of {K A} (x : list Event * Result A * World K) : list Event := x.1.1.
Definition result_of {K A} (x : list Event * Result A * World K) : Result A := x.1.2.
Definition world_of {K A} (x : list Event * Result A * World K) : World K := x.2.

(** ** System calls and library calls *)

Section Calls.
Context {K : Type} `{!MountBackend K}.

Definition lstat (path : string) : Proc K (option Z) :=
  λ w, let r := kernel_lstat (kernel w) path in ([EvLstat path r], Returned r, w).

Definition statvfs (path : string) : Proc K (option Z) :=
  λ w, let r := kernel_statvfs (kernel w) path in ([EvStatvfs path r], Returned r, w).

Definition mount (source target : string) (flags : Z) : Proc K (option Z) :=
  λ w, match kernel_mount (kernel w) source target flags with
       | (r, k') => ([EvMount source target flags r], Returned r, mkWorld (files w) k')
       end.

Definition stat (path : string) : Proc K bool :=
  λ w, let r := bool_decide (is_Some (file_at w path)) in
       ([EvStat path r], Returned r, w).

Definition g_key_file_load_from_file (path : string) : Proc K (option GKeyFile) :=
  λ w, let r := match file_at w path with
                | Some (KeyFileContent kf) => Some kf
                | _ => None
                end in
       ([EvKeyFileLoad path (bool_decide (is_Some r))], Returned r, w).

(** Modelled from the spec: [touch_run_ostree] is defined in
    [ostree-mount-util.h], which is not among the sources.  It is the step
    that records that this stage ran: it cannot fail and returns nothing. *)
Definition touch_run_ostree : Proc K unit :=
  λ w, ([EvTouchRunOstree], Returned (), mkWorld (files w) (kernel_touch (kernel w))).

(** Modelled from the spec: [path_is_on_readonly_fs] is defined in
    [ostree-mount-util.h], which is not among the sources.  It is the probe
    that answers whether the filesystem of [path] is currently read-only. *)
Definition path_is_on_readonly_fs (path : string) : Proc K bool :=
  λ w, let r := kernel_readonly_probe (kernel w) path in
       ([EvReadonlyProbe path r], Returned r, w).

(** [printf] and [puts] write to standard output; [puts] adds the newline. *)
Definition printf (text : string) : Proc K unit :=
  λ w, ([EvStdout text], Returned (), w).

Definition puts (text : string) : Proc K unit := printf (text +:+ nl).

(** [perror (s)] and [err (status, fmt, ...)] write the message and the
    text of [errno] to standard error; [err] then exits with [status]. *)
Definition perror (text : string) (errno : Z) : Proc K unit :=
  λ w, ([EvStderr text errno], Returned (), w).

Definition err {A} (status : Z) (text : string) (errno : Z) : Proc K A :=
  λ w, ([EvStderr text errno], Exited status, w).

Definition exit {A} (status : Z) : Proc K A :=
  λ w, ([], Exited status, w).

(** ** The program *)

Local Open Scope proc_scope.

(** [writable ? "rw" : "ro"] *)
Definition mode_name (writable : bool) : string := if writable then "rw" else "ro".

(** [int mnt_flags = MS_REMOUNT | MS_SILENT; if (!writable) mnt_flags |= MS_RDONLY;] *)
Definition mnt_flags (writable : bool) : Z :=
  let flags := Z.lor MS_REMOUNT MS_SILENT in
  if negb writable then Z.lor flags MS_RDONLY else flags.

Definition do_remount (target : string) (writable : bool) : Proc K unit :=
  let* stbuf := lstat target in
  match stbuf with
  | None => ret ()
  | Some st_mode =>
      if S_ISLNK st_mode then ret ()
      else
        let* stvfsbuf := statvfs target in
        match stvfsbuf with
        | None => ret ()
        | Some f_flag =>
            let currently_writable := Z.land f_flag ST_RDONLY =? 0 in
            if bool_decide (writable = currently_writable) then ret ()
            else
              let* rc := mount target target (mnt_flags writable) in
              match rc with
              | Some errno =>
                  if negb (errno =? EINVAL)
                  then err EXIT_FAILURE
                         ("failed to remount(" +:+ mode_name writable +:+ ") " +:+ target)
                         errno
                  else ret ()
              | None =>
                  printf ("Remounted " +:+ mode_name writable +:+ ": " +:+ target +:+ nl)
              end
        end
  end.

Definition config_path : string := "/ostree/repo/config".

Definition ignoring_notice : string :=
  "Ignoring sysroot.readonly config; see https://github.com/coreos/fedora-coreos-tracker/issues/488.".

Definition sysroot_is_configured_ro : Proc K bool :=
  let* found := stat config_path in
  if negb found then ret false
  else
    let* loaded := g_key_file_load_from_file config_path in
    match loaded with
    | None => ret false
    | Some keyfile =>
        (if g_key_file_get_boolean keyfile "sysroot" "readonly"
         then puts ignoring_notice
         else ret ());;;
        ret false
    end.

(** The tail of [main] from the first [do_remount] on, as a function of
    the local [sysroot_readonly]. *)
Definition main_remounts (sysroot_readonly : bool) : Proc K unit :=
  do_remount "/sysroot" (negb sysroot_readonly);;;
  (if sysroot_readonly
   then
     let* rc := mount "/etc" "/etc" MS_BIND in
     match rc with
     | Some errno => err EXIT_FAILURE "failed to make /etc a bind mount" errno
     | None => do_remount "/etc" true
     end
   else ret ());;;
  do_remount "/var" true;;;
  exit EXIT_SUCCESS.

Definition main : Proc K unit :=
  touch_run_ostree;;;
  let* rc := mount "none" "/sysroot" (Z.lor MS_REC MS_PRIVATE) in
  match rc with
  | Some errno => perror "warning: While remounting /sysroot MS_PRIVATE" errno
  | None => ret ()
  end;;;
  let* root_ro := path_is_on_readonly_fs "/" in
  if root_ro then exit EXIT_SUCCESS
  else
    let* sysroot_readonly := sysroot_is_configured_ro in
    main_remounts sysroot_readonly.
End Calls.

(** ** Reading a trace *)

(** The [mount] calls of a trace: source, target, flags, and the errno of a
    failed call. *)
Definition mount_calls (t : list Event) : list (string * string * Z * option Z) :=
  omap (λ e, match e with
             | EvMount source target flags errno => Some (source, target, flags, errno)
             | _ => None
             end) t.

(** What was written to standard output, in order. *)
Definition stdout_of (t : list Event) : list string :=
  omap (λ e, match e with EvStdout text => Some text | _ => None end) t.

(** The paths handed to [lstat], in order: [do_remount] starts with that
    call, so these are the targets processed. *)
Definition targets_visited (t : list Event) : list string :=
  omap (λ e, match e with EvLstat path _ => Some path | _ => None end) t.

(** The reads of the configuration: [stat] and the key file loader. *)
Definition config_reads (t : list Event) : list string :=
  omap (λ e, match e with
             | EvStat path _ | EvKeyFileLoad path _ => Some path
             | _ => None
             end) t.

(** The answers of the root writability probe. *)
Definition readonly_probes (t : list Event) : list (string * bool) :=
  omap (λ e, match e with EvReadonlyProbe path r => Some (path, r) | _ => None end) t.

(** What was written to standard error: the message and the errno it names. *)
Definition stderr_of (t : list Event) : list (string * Z) :=
  omap (λ e, match e with EvStderr text errno => Some (text, errno) | _ => None end) t.

Definition has_flag (flags flag : Z) : bool := negb (Z.land flags flag =? 0).

(** A remount that was applied: the call carries [MS_REMOUNT] and returned 0. *)
Definition applied_remounts (t : list Event) : list (string * Z) :=
  omap (λ '(source, target, flags, errno),
          match errno with
          | None => if has_flag flags MS_REMOUNT then Some (target, flags) else None
          | Some _ => None
          end) (mount_calls t).

(** The remount calls issued, applied or not. *)
Definition remount_calls (t : list Event) : list (string * string * Z) :=
  omap (λ '(source, target, flags, errno),
          if has_flag flags MS_REMOUNT then Some (source, target, flags) else None)
       (mount_calls t).

(** The steps of the remount sequence that a trace shows: a target taken up
    (its [lstat]), a bind mount, a remount call with the writability it asks
    for. *)
Inductive Step : Type :=
| Visit (target : string)
| BindMount (target : string)
| Remount (target : string) (writable : bool).

Definition steps (t : list Event) : list Step :=
  omap (λ e, match e with
             | EvLstat path _ => Some (Visit path)
             | EvMount _ target flags _ =>
                 if has_flag flags MS_REMOUNT
                 then Some (Remount target (negb (has_flag flags MS_RDONLY)))
                 else if has_flag flags MS_BIND then Some (BindMount target) else None
             | _ => None
             end) t.

(** The order of the steps for a given policy: every run shows a
    subsequence of [plan], and a run that is not cut short shows at least
    [required]. *)
Definition plan (sysroot_readonly : bool) : list Step :=
  [Visit "/sysroot"; Remount "/sysroot" (negb sysroot_readonly)]
  ++ (if sysroot_readonly
      then [BindMount "/etc"; Visit "/etc"; Remount "/etc" true]
      else [])
  ++ [Visit "/var"; Remount "/var" true].

Definition required (sysroot_readonly : bool) : list Step :=
  [Visit "/sysroot"]
  ++ (if sysroot_readonly then [BindMount "/etc"; Visit "/etc"] else [])
  ++ [Visit "/var"].

(** The line the program prints for an applied remount. *)
Definition status_line (target : string) (writable : bool) : string :=
  "Remounted " +:+ mode_name writable +:+ ": " +:+ target +:+ nl.

(** The line in the format the specification gives: path, then mode. *)
Definition spec_status_line (target : string) (writable : bool) : string :=
  "Remounted " +:+ target +:+ ": " +:+ mode_name writable +:+ nl.

(** The outcome vocabulary of the specification, read off a run of
    [do_remount]: it ended the process, it applied a remount, or neither. *)
Inductive RemountOutcome : Type :=
| NoOp
| Applied
| FatalError (status : Z).

Definition outcome_of {K} (x : list Event * Result unit * World K) : RemountOutcome :=
  match result_of x with
  | Exited status => FatalError status
  | Returned _ =>
      match applied_remounts (trace_of x) with
      | [] => NoOp
      | _ => Applied
      end
  end.


(** The [mount] calls that failed: target, flags and errno. *)
Definition failed_mounts (t : list Event) : list (string * Z * Z) :=
  omap (λ '(source, target, flags, errno), (λ e, (target, flags, e)) <$> errno)
       (mount_calls t).

(** The failed [mount] calls on one target: flags and errno. *)
Definition failed_mounts_on (path : string) (t : list Event) : list (Z * Z) :=
  omap (λ '(target, flags, errno),
          if bool_decide (target = path) then Some (flags, errno) else None)
       (failed_mounts t).

(** The failed remounts with an errno other than [EINVAL]: target and errno. *)
Definition fatal_remounts (t : list Event) : list (string * Z) :=
  omap (λ '(target, flags, errno),
          if has_flag flags MS_REMOUNT && negb (errno =? EINVAL)
          then Some (target, errno)
          else None)
       (failed_mounts t).

(** What [lstat] answered for one path, in order. *)
Definition lstat_results (path : string) (t : list Event) : list (option Z) :=
  omap (λ e, match e with
             | EvLstat p r => if bool_decide (p = path) then Some r else None
             | _ => None
             end) t.

(** The marker steps of a trace. *)
Definition marker_steps (t : list Event) : nat :=
  length (omap (λ e, match e with EvTouchRunOstree => Some () | _ => None end) t).

(** What [perror] writes when the [MS_PRIVATE] mount returned [rc]. *)
Definition private_warning (rc : option Z) : list (string * Z) :=
  match rc with
  | Some errno => [("warning: While remounting /sysroot MS_PRIVATE", errno)]
  | None => []
  end.

(** The notice that the configured policy is ignored, when the key file at
    the configuration path asks for a read-only sysroot. *)
Definition config_notice {K} (w : World K) : list string :=
  match file_at w config_path with
  | Some (KeyFileContent keyfile) =>
      if g_key_file_get_boolean keyfile "sysroot" "readonly"
      then [ignoring_notice +:+ nl]
      else []
  | Some Unparseable | None => []
  end.

(** The message of [err] for a remount that failed. *)
Definition remount_error (target : string) (writable : bool) : string :=
  "failed to remount(" +:+ mode_name writable +:+ ") " +:+ target.

(** ** Describing runs *)

Section Runs.
Context {K : Type} `{!MountBackend K}.

(** [do_remount] gets as far as the [mount] call: the target can be
    examined, is no symbolic link, and is not in the wanted state. *)
Definition remount_needed (w : World K) (target : string) (writable : bool) : bool :=
  match kernel_lstat (kernel w) target, kernel_statvfs (kernel w) target with
  | Some st_mode, Some f_flag =>
      negb (S_ISLNK st_mode)
      && negb (bool_decide (writable = (Z.land f_flag ST_RDONLY =? 0)))
  | _, _ => false
  end.

(** The seven ways through [do_remount], one per [return], [err] and the
    final [printf]. *)
Inductive RemountRun (target : string) (writable : bool) (w : World K) :
  list Event * Result unit * World K → Prop :=
| run_lstat_failed :
    kernel_lstat (kernel w) target = None →
    RemountRun target writable w ([EvLstat target None], Returned (), w)
| run_symlink m :
    kernel_lstat (kernel w) target = Some m →
    S_ISLNK m = true →
    RemountRun target writable w ([EvLstat target (Some m)], Returned (), w)
| run_statvfs_failed m :
    kernel_lstat (kernel w) target = Some m →
    S_ISLNK m = false →
    kernel_statvfs (kernel w) target = None →
    RemountRun target writable w
      ([EvLstat target (Some m); EvStatvfs target None], Returned (), w)
| run_already m f :
    kernel_lstat (kernel w) target = Some m →
    S_ISLNK m = false →
    kernel_statvfs (kernel w) target = Some f →
    writable = (Z.land f ST_RDONLY =? 0) →
    RemountRun target writable w
      ([EvLstat target (Some m); EvStatvfs target (Some f)], Returned (), w)
| run_not_a_mountpoint m f k' :
    kernel_lstat (kernel w) target = Some m →
    kernel_statvfs (kernel w) target = Some f →
    remount_needed w target writable = true →
    kernel_mount (kernel w) target target (mnt_flags writable) = (Some EINVAL, k') →
    RemountRun target writable w
      ([EvLstat target (Some m); EvStatvfs target (Some f);
        EvMount target target (mnt_flags writable) (Some EINVAL)],
       Returned (), mkWorld (files w) k')
| run_fatal m f errno k' :
    kernel_lstat (kernel w) target = Some m →
    kernel_statvfs (kernel w) target = Some f →
    remount_needed w target writable = true →
    kernel_mount (kernel w) target target (mnt_flags writable) = (Some errno, k') →
    errno ≠ EINVAL →
    RemountRun target writable w
      ([EvLstat target (Some m); EvStatvfs target (Some f);
        EvMount target target (mnt_flags writable) (Some errno);
        EvStderr ("failed to remount(" +:+ mode_name writable +:+ ") " +:+ target) errno],
       Exited EXIT_FAILURE, mkWorld (files w) k')
| run_applied m f k' :
    kernel_lstat (kernel w) target = Some m →
    kernel_statvfs (kernel w) target = Some f →
    remount_needed w target writable = true →
    kernel_mount (kernel w) target target (mnt_flags writable) = (None, k') →
    RemountRun target writable w
      ([EvLstat target (Some m); EvStatvfs target (Some f);
        EvMount target target (mnt_flags writable) None;
        EvStdout (status_line target writable)],
       Returned (), mkWorld (files w) k').

(** What [sysroot_is_configured_ro] does, by what is at the configuration path. *)
Definition config_trace (w : World K) : list Event :=
  match file_at w config_path with
  | None => [EvStat config_path false]
  | Some Unparseable => [EvStat config_path true; EvKeyFileLoad config_path false]
  | Some (KeyFileContent keyfile) =>
      [EvStat config_path true; EvKeyFileLoad config_path true]
      ++ (if g_key_file_get_boolean keyfile "sysroot" "readonly"
          then [EvStdout (ignoring_notice +:+ nl)]
          else [])
  end.

(** The start of [main]: the marker, the [MS_PRIVATE] mount with its
    warning, and the probe of the root filesystem. *)
Definition after_prelude (w : World K) : option Z * World K :=
  match kernel_mount (kernel_touch (kernel w)) "none" "/sysroot" (Z.lor MS_REC MS_PRIVATE) with
  | (rc, k) => (rc, mkWorld (files w) k)
  end.

Definition prelude_trace (rc : option Z) (root_ro : bool) : list Event :=
  [EvTouchRunOstree; EvMount "none" "/sysroot" (Z.lor MS_REC MS_PRIVATE) rc]
  ++ match rc with
     | Some errno => [EvStderr "warning: While remounting /sysroot MS_PRIVATE" errno]
     | None => []
     end
  ++ [EvReadonlyProbe "/" root_ro].

(** [main_remounts] ends in one of two ways: with success after every
    target was taken up, or with failure right after a [mount] call that
    failed, the message for it being the last thing the process does; a
    remount that failed with [EINVAL] is never that call. *)
Definition completes (ro : bool) (x : list Event * Result unit * World K) : Prop :=
  result_of x = Exited EXIT_SUCCESS ∧ required ro `sublist_of` steps (trace_of x).

Definition aborts (x : list Event * Result unit * World K) : Prop :=
  result_of x = Exited EXIT_FAILURE
  ∧ ∃ source target flags errno text,
      [EvMount source target flags (Some errno); EvStderr text errno]
        `suffix_of` trace_of x
      ∧ (has_flag flags MS_REMOUNT = false ∨ errno ≠ EINVAL).

(** The line printed for an applied remount, from the call itself. *)
Definition applied_line (call : string * Z) : string :=
  status_line call.1 (negb (has_flag call.2 MS_RDONLY)).
End Runs.

(** ** An in-memory mount backend

    A table from paths to what the kernel knows about them; used to run the
    program on concrete machines. *)

Module Fake.
Record Entry : Type := mkEntry {
  st_mode : Z;
  f_flag : option Z;
  remount_errno : option Z;
}.

Record Kernel : Type := mkKernel {
  table : gmap string Entry;
  booted : bool;
}.

Definition ENOENT : Z := 2.
Definition S_IFDIR : Z := 16384.

Definition set_rdonly (flags : Z) (f : Z) : Z :=
  if has_flag flags MS_RDONLY then Z.lor f ST_RDONLY else Z.ldiff f ST_RDONLY.

Definition do_mount (k : Kernel) (source target : string) (flags : Z) : option Z * Kernel :=
  match table k !! target with
  | None => (Some ENOENT, k)
  | Some e =>
      if has_flag flags MS_REMOUNT then
        match remount_errno e, f_flag e with
        | Some errno, _ => (Some errno, k)
        | None, None => (Some EINVAL, k)
        | None, Some f =>
            (None,
             mkKernel (<[target := mkEntry (st_mode e) (Some (set_rdonly flags f)) None]> (table k))
                      (booted k))
        end
      else (None, k)
  end.

#[global] Instance backend : MountBackend Kernel := {|
  kernel_lstat k path := st_mode <$> table k !! path;
  kernel_statvfs k path := table k !! path ≫= f_flag;
  kernel_mount := do_mount;
  kernel_touch k := mkKernel (table k) true;
  kernel_readonly_probe k path :=
    match table k !! path ≫= f_flag with
    | Some f => has_flag f ST_RDONLY
    | None => false
    end;
|}.

Definition dir_rw : Entry := mkEntry (Z.lor S_IFDIR 493) (Some 0) None.
Definition dir_ro : Entry := mkEntry (Z.lor S_IFDIR 493) (Some ST_RDONLY) None.
Definition dir_plain : Entry := mkEntry (Z.lor S_IFDIR 493) (Some ST_RDONLY) (Some EINVAL).
Definition dir_busy : Entry := mkEntry (Z.lor S_IFDIR 493) (Some ST_RDONLY) (Some 16).
Definition symlink : Entry := mkEntry (Z.lor S_IFLNK 511) (Some ST_RDONLY) None.

Definition readonly_keyfile : GKeyFile :=
  {[ "sysroot" := {[ "readonly" := "true" ]} ]}.

(** Root writable, [/sysroot] and [/var] mounted read-only, no configuration. *)
Definition booting : World Kernel :=
  mkWorld ∅
    (mkKernel {[ "/" := dir_rw; "/sysroot" := dir_ro; "/etc" := dir_ro; "/var" := dir_ro ]}
              false).

(** The same machine with [sysroot.readonly=true] in the repository configuration. *)
Definition booting_configured_ro : World Kernel :=
  mkWorld {[ config_path := KeyFileContent readonly_keyfile ]} (kernel booting).

(** A machine whose root filesystem is read-only. *)
Definition root_ro : World Kernel :=
  mkWorld {[ config_path := KeyFileContent readonly_keyfile ]}
    (mkKernel {[ "/" := dir_ro; "/sysroot" := dir_ro; "/var" := dir_ro ]} false).

(** [/sysroot] is a plain directory, [/var] a symbolic link. *)
Definition not_mounted : World Kernel :=
  mkWorld ∅
    (mkKernel {[ "/" := dir_rw; "/sysroot" := dir_plain; "/var" := symlink ]} false).

(** The remount of [/sysroot] fails with [EBUSY]. *)
Definition busy : World Kernel :=
  mkWorld ∅
    (mkKernel {[ "/" := dir_rw; "/sysroot" := dir_busy; "/var" := dir_ro ]} false).
End Fake.


(** ** Two kernels that do not keep to the rules

    [Stubborn] accepts every remount and leaves the filesystem read-only, as
    a filesystem that cannot be written does.  [Flaky] refuses the first
    remount with [EINVAL] and accepts every later one. *)

Module Stubborn.
Inductive Kernel : Type := kernel_state.

#[global] Instance backend : MountBackend Kernel := {|
  kernel_lstat _ _ := Some (Z.lor Fake.S_IFDIR 493);
  kernel_statvfs _ _ := Some ST_RDONLY;
  kernel_mount k _ _ _ := (None, k);
  kernel_touch k := k;
  kernel_readonly_probe _ _ := false;
|}.

Definition machine : World Kernel := mkWorld ∅ kernel_state.
End Stubborn.

Module Flaky.
Record Kernel : Type := mkKernel { refused : bool; rdonly : bool }.

#[global] Instance backend : MountBackend Kernel := {|
  kernel_lstat _ _ := Some (Z.lor Fake.S_IFDIR 493);
  kernel_statvfs k _ := Some (if rdonly k then ST_RDONLY else 0);
  kernel_mount k _ _ flags :=
    if refused k
    then (None, mkKernel true (has_flag flags MS_RDONLY))
    else (Some EINVAL, mkKernel true (rdonly k));
  kernel_touch k := k;
  kernel_readonly_probe _ _ := false;
|}.

Definition machine : World Kernel := mkWorld ∅ (mkKernel false true).
End Flaky.

(** ** The in-memory backend is a lawful kernel *)

Module FakeLaws.
Import Fake.

(** A remount that succeeds sets the read-only flag of the target as asked. *)
Lemma remount_takes_effect (k k' : Kernel) (target : string) (flags f : Z) :
  kernel_mount k target target flags = (None, k') →
  has_flag flags MS_REMOUNT = true →
  kernel_statvfs k' target = Some f →
  (Z.land f ST_RDONLY =? 0) = negb (has_flag flags MS_RDONLY).
Proof.
  simpl. unfold do_mount. intros Hm Hr Hv.
  destruct (table k !! target) as [e|] eqn:He; [|done].
  rewrite Hr in Hm. destruct (remount_errno e); [done|].
  destruct (f_flag e) as [f0|]; [|done].
  injection Hm as <-. simpl in Hv. rewrite lookup_insert_eq in Hv.
  injection Hv as <-. unfold set_rdonly.
  destruct (has_flag flags MS_RDONLY); simpl.
  - apply Z.eqb_neq. rewrite Z.land_lor_distr_l.
    by intros [_ ?]%Z.lor_eq_0_iff.
  - apply Z.eqb_eq, Z.land_ldiff.
Qed.

End FakeLaws.

(** ** Running [do_remount] *)

Section DoRemount.
Context {K : Type} `{!MountBackend K}.

Lemma do_remount_run target writable w :
  RemountRun target writable w (do_remount target writable w).
Proof.
  unfold do_remount, bind, lstat, statvfs, mount.
  destruct (kernel_lstat (kernel w) target) as [m|] eqn:Hl; simpl;
    [|by constructor].
  destruct (S_ISLNK m) eqn:Hs; simpl; [by constructor|].
  destruct (kernel_statvfs (kernel w) target) as [f|] eqn:Hv; simpl;
    [|by constructor].
  case_bool_decide as Hw; simpl; [by constructor|].
  assert (remount_needed w target writable = true) as Hn.
  { unfold remount_needed. rewrite Hl, Hv, Hs. simpl.
    by rewrite bool_decide_eq_false_2. }
  destruct (kernel_mount (kernel w) target target (mnt_flags writable))
    as [[errno|] k'] eqn:Hm; simpl; [|by eapply run_applied].
  destruct (errno =? EINVAL) eqn:He; simpl.
  - apply Z.eqb_eq in He. subst errno. by eapply run_not_a_mountpoint.
  - apply Z.eqb_neq in He. by eapply run_fatal.
Qed.

(** The flags of the remount call, bit by bit. *)
Lemma mnt_flags_bits writable :
  mnt_flags writable
  = Z.lor (Z.lor MS_REMOUNT MS_SILENT) (if writable then 0 else MS_RDONLY)
  ∧ has_flag (mnt_flags writable) MS_REMOUNT = true
  ∧ has_flag (mnt_flags writable) MS_SILENT = true
  ∧ has_flag (mnt_flags writable) MS_RDONLY = negb writable.
Proof. by destruct writable. Qed.

Lemma mnt_flags_remount writable : has_flag (mnt_flags writable) MS_REMOUNT = true.
Proof. by destruct writable. Qed.

Lemma remount_needed_false_symlink w target writable m :
  kernel_lstat (kernel w) target = Some m →
  S_ISLNK m = true →
  remount_needed w target writable = false.
Proof.
  intros Hl Hs. unfold remount_needed. rewrite Hl, Hs.
  by destruct (kernel_statvfs (kernel w) target).
Qed.

(** The [mount] calls of one [do_remount]: none, or the one remount. *)
Lemma do_remount_mount_calls target writable w :
  mount_calls (trace_of (do_remount target writable w))
  = if remount_needed w target writable
    then [(target, target, mnt_flags writable,
           (kernel_mount (kernel w) target target (mnt_flags writable)).1)]
    else [].
Proof.
  destruct (do_remount_run target writable w) as
    [Hl|m Hl Hs|m Hl Hs Hv|m f Hl Hs Hv Hw|m f k' _ _ Hn Hm|m f e k' _ _ Hn Hm He|m f k' _ _ Hn Hm];
    try (rewrite Hn, Hm; reflexivity);
    unfold remount_needed; rewrite Hl; try rewrite Hs; try rewrite Hv; simpl;
    try reflexivity.
  - by destruct (kernel_statvfs (kernel w) target).
  - by rewrite bool_decide_eq_true_2.
Qed.
End DoRemount.


(** ** Running [main] *)

Section Main.
Context {K : Type} `{!MountBackend K}.

Lemma sysroot_is_configured_ro_run (w : World K) :
  sysroot_is_configured_ro w = (config_trace w, Returned false, w).
Proof.
  unfold sysroot_is_configured_ro, config_trace, bind, stat,
    g_key_file_load_from_file, puts, printf.
  destruct (file_at w config_path) as [[|keyfile]|] eqn:Hf; simpl;
    rewrite ?Hf; simpl; try done.
  by destruct (g_key_file_get_boolean keyfile "sysroot" "readonly").
Qed.

Lemma main_run (w : World K) :
  let rc := (after_prelude w).1 in
  let w' := (after_prelude w).2 in
  main w
  = if kernel_readonly_probe (kernel w') "/"
    then (prelude_trace rc true, Exited EXIT_SUCCESS, w')
    else
      let y := main_remounts false w' in
      (prelude_trace rc false ++ config_trace w' ++ trace_of y, result_of y, world_of y).
Proof.
  unfold main, after_prelude, prelude_trace.
  unfold bind at 1 2 3 4. unfold touch_run_ostree, mount, perror, path_is_on_readonly_fs, exit.
  simpl.
  destruct (kernel_mount _ _ _ _) as [[errno|] k]; simpl;
    (destruct (kernel_readonly_probe k "/"); simpl; [done|]);
    unfold bind; rewrite sysroot_is_configured_ro_run;
    by destruct (main_remounts false _) as [[t r] w2].
Qed.

(** One case per way through the [do_remount] calls in the goal. *)
Ltac remount_cases :=
  repeat match goal with
         | |- context [do_remount ?target ?writable ?w] =>
             destruct (do_remount_run target writable w); simpl
         end.

Ltac run_main_remounts ro :=
  unfold main_remounts, bind, mount, err, exit; destruct ro; simpl;
  remount_cases;
  repeat match goal with
         | |- context [kernel_mount ?k ?s ?t ?f] =>
             destruct (kernel_mount k s t f) as [[?|] ?]; simpl; remount_cases
         end.

Lemma main_remounts_steps ro w :
  steps (trace_of (main_remounts ro w)) `sublist_of` plan ro.
Proof.
  run_main_remounts ro; by repeat constructor.
Qed.

Lemma main_remounts_ends ro w :
  completes ro (main_remounts ro w) ∨ aborts (main_remounts ro w).
Proof.
  run_main_remounts ro;
    first
      [ left; split; [reflexivity | by repeat constructor]
      | right; split; [reflexivity|]; do 5 eexists; split;
        [ repeat first [reflexivity | apply suffix_cons_r]
        | first [by left | by right] ] ].
Qed.

Lemma main_remounts_stdout ro w :
  stdout_of (trace_of (main_remounts ro w))
  = applied_line <$> applied_remounts (trace_of (main_remounts ro w)).
Proof. run_main_remounts ro; reflexivity. Qed.

Lemma main_remounts_false_mounts w :
  Forall (λ call, call.1.1.2 ≠ "/etc")
    (mount_calls (trace_of (main_remounts false w))).
Proof.
  unfold main_remounts, bind, exit; simpl. remount_cases;
    by repeat (constructor; [done|]).
Qed.

Lemma prelude_steps rc root_ro : steps (prelude_trace rc root_ro) = [].
Proof. by destruct rc. Qed.

Lemma config_steps (w : World K) : steps (config_trace w) = [].
Proof.
  unfold config_trace.
  destruct (file_at w config_path) as [[|keyfile]|]; [done| |done].
  by destruct (g_key_file_get_boolean keyfile "sysroot" "readonly").
Qed.

Lemma config_mount_calls (w : World K) : mount_calls (config_trace w) = [].
Proof.
  unfold config_trace.
  destruct (file_at w config_path) as [[|keyfile]|]; [done| |done].
  by destruct (g_key_file_get_boolean keyfile "sysroot" "readonly").
Qed.

Lemma prelude_mount_calls rc root_ro :
  mount_calls (prelude_trace rc root_ro)
  = [("none", "/sysroot", Z.lor MS_REC MS_PRIVATE, rc)].
Proof. by destruct rc. Qed.

Lemma prelude_probes rc root_ro rest :
  readonly_probes (prelude_trace rc root_ro ++ rest)
  = ("/", root_ro) :: readonly_probes rest.
Proof. by destruct rc. Qed.

(** When nothing calls for the remount, [do_remount] only looks. *)
Lemma do_remount_not_needed target writable w :
  remount_needed w target writable = false →
  result_of (do_remount target writable w) = Returned ()
  ∧ mount_calls (trace_of (do_remount target writable w)) = []
  ∧ world_of (do_remount target writable w) = w
  ∧ outcome_of (do_remount target writable w) = NoOp.
Proof.
  intros Hn.
  destruct (do_remount_run target writable w); try done; congruence.
Qed.
End Main.


(** ** Properties of [sysroot_is_configured_ro] and [do_remount] *)

Section Properties.
Context {K : Type} `{!MountBackend K}.

(** C1. Whatever is at the configuration path, [sysroot_is_configured_ro]
    returns [false] and leaves the machine as it was: so it does for a
    missing file and for one that does not load, and when the key file
    gives [readonly] under [sysroot] as true the only difference is the
    notice on standard output that the setting is ignored. *)
Theorem sysroot_is_configured_ro_false (w : World K) :
  let x := sysroot_is_configured_ro w in
  result_of x = Returned false
  ∧ world_of x = w
  ∧ mount_calls (trace_of x) = []
  ∧ stdout_of (trace_of x)
    = match file_at w config_path with
      | Some (KeyFileContent keyfile) =>
          if g_key_file_get_boolean keyfile "sysroot" "readonly"
          then [ignoring_notice +:+ nl]
          else []
      | Some Unparseable | None => []
      end.
Proof.
  unfold sysroot_is_configured_ro, bind, stat, g_key_file_load_from_file, puts, printf.
  destruct (file_at w config_path) as [[|keyfile]|] eqn:Hf; simpl;
    rewrite ?Hf; simpl; try done.
  by destruct (g_key_file_get_boolean keyfile "sysroot" "readonly").
Qed.

(** C5. When [lstat] reports the target as a symbolic link, [do_remount]
    returns after that one call, for either wanted writability: no [mount]
    call is issued, nothing is printed, and the machine is unchanged. *)
Theorem do_remount_symlink_no_mount (target : string) (writable : bool)
    (w : World K) (st_mode : Z) :
  kernel_lstat (kernel w) target = Some st_mode →
  S_ISLNK st_mode = true →
  do_remount target writable w = ([EvLstat target (Some st_mode)], Returned (), w)
  ∧ mount_calls (trace_of (do_remount target writable w)) = []
  ∧ outcome_of (do_remount target writable w) = NoOp.
Proof.
  intros Hl Hs.
  assert (do_remount target writable w
          = ([EvLstat target (Some st_mode)], Returned (), w)) as ->; [|done].
  unfold do_remount, bind, lstat. rewrite Hl. simpl. by rewrite Hs.
Qed.

(** C7. [do_remount] issues at most one [mount] call, and only when the
    target is examined, is no symbolic link and is not in the wanted
    state; that call has the target as source and as mount point, and its
    flags are [MS_REMOUNT | MS_SILENT], with [MS_RDONLY] added exactly when
    the wanted writability is false. *)
Theorem do_remount_mount_flags (target : string) (writable : bool) (w : World K) :
  let flags := Z.lor (Z.lor MS_REMOUNT MS_SILENT) (if writable then 0 else MS_RDONLY) in
  mount_calls (trace_of (do_remount target writable w))
  = (if remount_needed w target writable
     then [(target, target, flags, (kernel_mount (kernel w) target target flags).1)]
     else [])
  ∧ has_flag flags MS_REMOUNT = true
  ∧ has_flag flags MS_SILENT = true
  ∧ has_flag flags MS_RDONLY = negb writable.
Proof.
  intros flags.
  destruct (mnt_flags_bits writable) as (Hf & Hr & Hs & Hro).
  fold flags in Hf. rewrite <- Hf.
  by rewrite do_remount_mount_calls.
Qed.

(** C2, amended. [do_remount] prints one line exactly when it applied a
    remount, and nothing otherwise; the line is [Remounted], then the mode
    ([rw] or [ro]), a colon, and then the path.  Over the whole remount
    sequence the lines on standard output are those of the applied
    remounts, one each and in order. *)
Theorem applied_remount_prints_mode_then_path (target : string)
    (writable ro : bool) (w : World K) :
  let x := do_remount target writable w in
  stdout_of (trace_of x)
  = match outcome_of x with
    | Applied => ["Remounted " +:+ mode_name writable +:+ ": " +:+ target +:+ nl]
    | NoOp | FatalError _ => []
    end
  ∧ stdout_of (trace_of (main_remounts ro w))
    = applied_line <$> applied_remounts (trace_of (main_remounts ro w)).
Proof.
  split; [|apply main_remounts_stdout].
  destruct (do_remount_run target writable w);
    try done; by destruct writable.
Qed.

(** C3. In a run of [main] in which the probe finds the root filesystem
    read-only, the process exits with [EXIT_SUCCESS] right after the probe:
    no target is examined, no remount and no bind mount is issued (the only
    [mount] call is the [MS_PRIVATE] one that comes before the probe), and
    nothing is printed. *)
Theorem main_readonly_root_exits_early (w : World K) :
  readonly_probes (trace_of (main w)) = [("/", true)] →
  result_of (main w) = Exited EXIT_SUCCESS
  ∧ remount_calls (trace_of (main w)) = []
  ∧ steps (trace_of (main w)) = []
  ∧ targets_visited (trace_of (main w)) = []
  ∧ mount_calls (trace_of (main w))
    = [("none", "/sysroot", Z.lor MS_REC MS_PRIVATE, (after_prelude w).1)]
  ∧ stdout_of (trace_of (main w)) = [].
Proof.
  rewrite main_run.
  destruct (kernel_readonly_probe _ _); unfold trace_of, result_of; cbn [fst snd].
  - intros _. by destruct (after_prelude w).1.
  - rewrite prelude_probes. by intros [=].
Qed.


(** What a run of [main] may show at most: the steps of the sequence for a
    writable policy, and no [mount] call on [/etc]. *)
Lemma main_bounded_by_writable_plan (w : World K) :
  let x := main w in
  result_of (sysroot_is_configured_ro w) = Returned false
  ∧ steps (trace_of x) `sublist_of` plan false
  ∧ plan false
    = [Visit "/sysroot"; Remount "/sysroot" true; Visit "/var"; Remount "/var" true]
  ∧ Forall (λ call, call.1.1.2 ≠ "/etc") (mount_calls (trace_of x))
  ∧ (result_of x = Exited EXIT_SUCCESS ∧ steps (trace_of x) = []
     ∨ ∃ t0 w0, steps t0 = []
         ∧ trace_of x = t0 ++ trace_of (main_remounts false w0)
         ∧ result_of x = result_of (main_remounts false w0)).
Proof.
  intros x. subst x. split; [by rewrite sysroot_is_configured_ro_run|].
  rewrite main_run.
  destruct (kernel_readonly_probe _ _); unfold trace_of, result_of; cbn [fst snd].
  - rewrite prelude_steps. split; [apply sublist_nil_l|]. split; [done|].
    split; [|by left].
    rewrite prelude_mount_calls. by repeat constructor.
  - set (w' := (after_prelude w).2). set (rc := (after_prelude w).1).
    assert (steps (prelude_trace rc false ++ config_trace w') = []) as Hs.
    { unfold steps. rewrite omap_app. fold (steps (prelude_trace rc false)).
      fold (steps (config_trace w')). by rewrite prelude_steps, config_steps. }
    split; [|split; [done|split]].
    + rewrite (assoc (++)). unfold steps. rewrite omap_app.
      fold (steps (prelude_trace rc false ++ config_trace w')). rewrite Hs.
      apply main_remounts_steps.
    + unfold mount_calls. rewrite !omap_app.
      fold (mount_calls (prelude_trace rc false)).
      fold (mount_calls (config_trace w')).
      rewrite prelude_mount_calls, config_mount_calls.
      apply Forall_app. split; [by repeat constructor|].
      apply main_remounts_false_mounts.
    + right. exists (prelude_trace rc false ++ config_trace w'), w'.
      by rewrite (assoc (++)).
Qed.

(** C10. Two runs of [main] on the same kernel state that differ only in
    what the filesystem holds at the configuration path (or anywhere else
    [stat] looks) cannot be told apart when the root filesystem is probed
    read-only: same trace, same exit status, same kernel state afterwards.
    Neither run reads the configuration, and neither prints anything, the
    notice included. *)
Theorem readonly_root_never_reads_config (k : K) (files1 files2 : gmap string FileContent) :
  let x1 := main (mkWorld files1 k) in
  let x2 := main (mkWorld files2 k) in
  readonly_probes (trace_of x1) = [("/", true)] →
  trace_of x1 = trace_of x2
  ∧ result_of x1 = result_of x2
  ∧ result_of x1 = Exited EXIT_SUCCESS
  ∧ kernel (world_of x1) = kernel (world_of x2)
  ∧ config_reads (trace_of x1) = []
  ∧ stdout_of (trace_of x1) = [].
Proof.
  intros x1 x2. subst x1 x2. rewrite !main_run. unfold after_prelude.
  cbn [kernel files].
  destruct (kernel_mount _ _ _ _) as [rc k']. cbn [fst snd kernel].
  destruct (kernel_readonly_probe k' "/"); unfold trace_of, result_of, world_of;
    cbn [fst snd kernel].
  - intros _. by destruct rc.
  - rewrite prelude_probes. by intros [=].
Qed.
End Properties.

(** ** Repeating [do_remount]

    What a second call finds depends on the kernel.  Two facts about
    [mount(2)] are assumed of the backend: a remount that succeeds leaves the
    target with the read-only flag it asked for, and a call that fails
    changes nothing. *)

Section Idempotence.
Context {K : Type} `{!MountBackend K}.

Hypothesis remount_takes_effect :
  ∀ (k k' : K) (target : string) (flags f : Z),
    kernel_mount k target target flags = (None, k') →
    has_flag flags MS_REMOUNT = true →
    kernel_statvfs k' target = Some f →
    (Z.land f ST_RDONLY =? 0) = negb (has_flag flags MS_RDONLY).

Hypothesis failed_mount_changes_nothing :
  ∀ (k k' : K) (source target : string) (flags errno : Z),
    kernel_mount k source target flags = (Some errno, k') → k' = k.



End Idempotence.

(** ** The program on concrete machines *)

Example main_booting :
  trace_of (main Fake.booting)
  = [EvTouchRunOstree;
     EvMount "none" "/sysroot" 278528 None;
     EvReadonlyProbe "/" false;
     EvStat "/ostree/repo/config" false;
     EvLstat "/sysroot" (Some 16877); EvStatvfs "/sysroot" (Some 1);
     EvMount "/sysroot" "/sysroot" 32800 None;
     EvStdout ("Remounted rw: /sysroot" +:+ nl);
     EvLstat "/var" (Some 16877); EvStatvfs "/var" (Some 1);
     EvMount "/var" "/var" 32800 None;
     EvStdout ("Remounted rw: /var" +:+ nl)]
  ∧ result_of (main Fake.booting) = Exited 0.
Proof. by vm_compute. Qed.

(** [readonly = true] in the configuration changes nothing but the notice. *)
Example main_booting_configured_ro :
  stdout_of (trace_of (main Fake.booting_configured_ro))
  = [ignoring_notice +:+ nl;
     "Remounted rw: /sysroot" +:+ nl;
     "Remounted rw: /var" +:+ nl]
  ∧ steps (trace_of (main Fake.booting_configured_ro))
    = [Visit "/sysroot"; Remount "/sysroot" true; Visit "/var"; Remount "/var" true].
Proof. by vm_compute. Qed.

(** [EINVAL] on [/sysroot]: the run goes on to [/var] and exits with success. *)
Example main_not_mounted :
  mount_calls (trace_of (main Fake.not_mounted))
  = [("none", "/sysroot", 278528, None);
     ("/sysroot", "/sysroot", 32800, Some EINVAL)]
  ∧ targets_visited (trace_of (main Fake.not_mounted)) = ["/sysroot"; "/var"]
  ∧ stdout_of (trace_of (main Fake.not_mounted)) = []
  ∧ result_of (main Fake.not_mounted) = Exited EXIT_SUCCESS.
Proof. by vm_compute. Qed.

(** [EBUSY] on [/sysroot]: the run ends there, [/var] is not taken up. *)
Example main_busy :
  stderr_of (trace_of (main Fake.busy)) = [("failed to remount(rw) /sysroot", 16)]
  ∧ targets_visited (trace_of (main Fake.busy)) = ["/sysroot"]
  ∧ result_of (main Fake.busy) = Exited EXIT_FAILURE.
Proof. by vm_compute. Qed.

(** Under a read-only policy the sequence would bind [/etc] and then remount it. *)
Example main_remounts_readonly_policy :
  steps (trace_of (main_remounts true Fake.booting))
  = [Visit "/sysroot"; BindMount "/etc"; Visit "/etc"; Remount "/etc" true;
     Visit "/var"; Remount "/var" true].
Proof. by vm_compute. Qed.

(** Twice in a row on a read-only [/sysroot]: applied, then nothing to do. *)
Example do_remount_twice :
  let x1 := do_remount "/sysroot" true Fake.booting in
  let x2 := do_remount "/sysroot" true (world_of x1) in
  outcome_of x1 = Applied
  ∧ trace_of x2 = [EvLstat "/sysroot" (Some 16877); EvStatvfs "/sysroot" (Some 0)]
  ∧ outcome_of x2 = NoOp.
Proof. by vm_compute. Qed.

(** C2, as the specification words it, fails: the mode comes before the path. *)
Lemma spec_status_line_counterexample :
  let x := do_remount "/sysroot" true Fake.booting in
  outcome_of x = Applied
  ∧ stdout_of (trace_of x) = ["Remounted rw: /sysroot" +:+ nl]
  ∧ stdout_of (trace_of x) ≠ [spec_status_line "/sysroot" true].
Proof. vm_compute. by repeat split. Qed.

Lemma main_readonly_root_exits_early_witness :
  readonly_probes (trace_of (main Fake.root_ro)) = [("/", true)]
  ∧ result_of (main Fake.root_ro) = Exited EXIT_SUCCESS
  ∧ remount_calls (trace_of (main Fake.root_ro)) = []
  ∧ steps (trace_of (main Fake.root_ro)) = []
  ∧ targets_visited (trace_of (main Fake.root_ro)) = []
  ∧ mount_calls (trace_of (main Fake.root_ro))
    = [("none", "/sysroot", Z.lor MS_REC MS_PRIVATE, (after_prelude Fake.root_ro).1)]
  ∧ stdout_of (trace_of (main Fake.root_ro)) = [].
Proof.
  split; [vm_compute; reflexivity|].
  apply (main_readonly_root_exits_early Fake.root_ro).
  vm_compute; reflexivity.
Defined.

Lemma do_remount_symlink_no_mount_witness :
  kernel_lstat (kernel Fake.not_mounted) "/var" = Some 41471
  ∧ S_ISLNK 41471 = true
  ∧ do_remount "/var" true Fake.not_mounted
    = ([EvLstat "/var" (Some 41471)], Returned (), Fake.not_mounted)
  ∧ mount_calls (trace_of (do_remount "/var" true Fake.not_mounted)) = []
  ∧ outcome_of (do_remount "/var" true Fake.not_mounted) = NoOp.
Proof.
  split; [vm_compute; reflexivity|]. split; [vm_compute; reflexivity|].
  apply (do_remount_symlink_no_mount "/var" true Fake.not_mounted 41471);
    vm_compute; reflexivity.
Defined.


Lemma readonly_root_never_reads_config_witness :
  let x1 := main Fake.root_ro in
  let x2 := main (mkWorld ∅ (kernel Fake.root_ro)) in
  readonly_probes (trace_of x1) = [("/", true)]
  ∧ trace_of x1 = trace_of x2
  ∧ result_of x1 = result_of x2
  ∧ result_of x1 = Exited EXIT_SUCCESS
  ∧ kernel (world_of x1) = kernel (world_of x2)
  ∧ config_reads (trace_of x1) = []
  ∧ stdout_of (trace_of x1) = [].
Proof.
  split; [vm_compute; reflexivity|].
  apply (readonly_root_never_reads_config (kernel Fake.root_ro) (files Fake.root_ro) ∅).
  vm_compute; reflexivity.
Defined.

(** ** Further properties of the three functions *)

Section Further.
Context {K : Type} `{!MountBackend K}.

(** The observers of a trace distribute over its parts. *)
Lemma mount_calls_app t1 t2 : mount_calls (t1 ++ t2) = mount_calls t1 ++ mount_calls t2.
Proof. apply omap_app. Qed.

Lemma failed_mounts_app t1 t2 :
  failed_mounts (t1 ++ t2) = failed_mounts t1 ++ failed_mounts t2.
Proof. unfold failed_mounts. by rewrite mount_calls_app, omap_app. Qed.

Lemma failed_mounts_on_app path t1 t2 :
  failed_mounts_on path (t1 ++ t2) = failed_mounts_on path t1 ++ failed_mounts_on path t2.
Proof. unfold failed_mounts_on. by rewrite failed_mounts_app, omap_app. Qed.

Lemma fatal_remounts_app t1 t2 :
  fatal_remounts (t1 ++ t2) = fatal_remounts t1 ++ fatal_remounts t2.
Proof. unfold fatal_remounts. by rewrite failed_mounts_app, omap_app. Qed.

Lemma applied_remounts_app t1 t2 :
  applied_remounts (t1 ++ t2) = applied_remounts t1 ++ applied_remounts t2.
Proof. unfold applied_remounts. by rewrite mount_calls_app, omap_app. Qed.

Lemma stdout_of_app t1 t2 : stdout_of (t1 ++ t2) = stdout_of t1 ++ stdout_of t2.
Proof. apply omap_app. Qed.

Lemma stderr_of_app t1 t2 : stderr_of (t1 ++ t2) = stderr_of t1 ++ stderr_of t2.
Proof. apply omap_app. Qed.

Lemma lstat_results_app path t1 t2 :
  lstat_results path (t1 ++ t2) = lstat_results path t1 ++ lstat_results path t2.
Proof. apply omap_app. Qed.

(** [main_remounts false] is the two calls of [do_remount] and the [exit]. *)
Lemma main_remounts_false_run (w : World K) :
  let x1 := do_remount "/sysroot" true w in
  let x2 := do_remount "/var" true (world_of x1) in
  main_remounts false w
  = match result_of x1 with
    | Exited status => (trace_of x1, Exited status, world_of x1)
    | Returned _ =>
        (trace_of x1 ++ trace_of x2,
         match result_of x2 with
         | Exited status => Exited status
         | Returned _ => Exited EXIT_SUCCESS
         end,
         world_of x2)
    end.
Proof.
  unfold main_remounts, bind, exit, ret. simpl.
  destruct (do_remount "/sysroot" true w) as [[t1 [[]|s1]] w1]; simpl; [|done].
  destruct (do_remount "/var" true w1) as [[t2 [[]|s2]] w2]; simpl; [|done].
  by rewrite app_nil_r.
Qed.

(** How one [do_remount] ends, with what it leaves on the two streams. *)
Lemma do_remount_ends target writable (w : World K) :
  let x := do_remount target writable w in
  (result_of x = Returned ()
   ∧ fatal_remounts (trace_of x) = []
   ∧ stderr_of (trace_of x) = [])
  ∨ (∃ errno, errno ≠ EINVAL
       ∧ result_of x = Exited EXIT_FAILURE
       ∧ fatal_remounts (trace_of x) = [(target, errno)]
       ∧ stderr_of (trace_of x) = [(remount_error target writable, errno)]
       ∧ stdout_of (trace_of x) = []).
Proof.
  destruct (do_remount_run target writable w)
    as [Hl|m Hl Hs|m Hl Hs Hv|m f Hl Hs Hv Hw
        |m f k' _ _ _ Hm|m f e k' _ _ _ Hm He|m f k' _ _ _ Hm];
    try (by left).
  - left. repeat split; try done.
    unfold fatal_remounts, failed_mounts, mount_calls, trace_of. simpl.
    by rewrite mnt_flags_remount.
  - right. exists e. repeat split; try done.
    unfold fatal_remounts, failed_mounts, mount_calls, trace_of. simpl.
    rewrite mnt_flags_remount. by apply Z.eqb_neq in He as ->.
Qed.

(** What the start of [main] and the reading of the configuration leave
    for each observer. *)
Lemma prelude_observed rc root_ro :
  fatal_remounts (prelude_trace rc root_ro) = []
  ∧ applied_remounts (prelude_trace rc root_ro) = []
  ∧ stdout_of (prelude_trace rc root_ro) = []
  ∧ stderr_of (prelude_trace rc root_ro) = private_warning rc
  ∧ failed_mounts_on "/var" (prelude_trace rc root_ro) = []
  ∧ marker_steps (prelude_trace rc root_ro) = 1%nat
  ∧ ∀ path, lstat_results path (prelude_trace rc root_ro) = [].
Proof. by destruct rc. Qed.

Lemma config_observed (w : World K) :
  mount_calls (config_trace w) = []
  ∧ stdout_of (config_trace w) = config_notice w
  ∧ stderr_of (config_trace w) = []
  ∧ readonly_probes (config_trace w) = []
  ∧ marker_steps (config_trace w) = 0%nat
  ∧ ∀ path, lstat_results path (config_trace w) = [].
Proof.
  unfold config_trace, config_notice.
  destruct (file_at w config_path) as [[|keyfile]|]; [done| |done].
  by destruct (g_key_file_get_boolean keyfile "sysroot" "readonly").
Qed.

Lemma config_no_mounts (w : World K) :
  fatal_remounts (config_trace w) = []
  ∧ applied_remounts (config_trace w) = []
  ∧ failed_mounts_on "/var" (config_trace w) = [].
Proof.
  unfold fatal_remounts, failed_mounts_on, failed_mounts, applied_remounts.
  by destruct (config_observed w) as (-> & _).
Qed.

(** What one [do_remount] never shows. *)
Lemma do_remount_quiet target writable (w : World K) :
  readonly_probes (trace_of (do_remount target writable w)) = []
  ∧ marker_steps (trace_of (do_remount target writable w)) = 0%nat.
Proof. by destruct (do_remount_run target writable w). Qed.

Lemma do_remount_lstat_results path target writable (w : World K) :
  lstat_results path (trace_of (do_remount target writable w))
  = if bool_decide (target = path) then [kernel_lstat (kernel w) target] else [].
Proof.
  destruct (do_remount_run target writable w)
    as [Hl|m Hl Hs|m Hl Hs Hv|m f Hl Hs Hv Hw
        |m f k' Hl _ _ Hm|m f e k' Hl _ _ Hm He|m f k' Hl _ _ Hm];
    rewrite Hl; unfold lstat_results, trace_of; simpl; by case_bool_decide.
Qed.

(** The trace of [main]: its start, and unless the root is read-only the
    reading of the configuration and the remount sequence. *)
Lemma main_trace (w : World K) :
  let rc := (after_prelude w).1 in
  let w' := (after_prelude w).2 in
  trace_of (main w)
  = prelude_trace rc (kernel_readonly_probe (kernel w') "/")
    ++ (if kernel_readonly_probe (kernel w') "/"
        then []
        else config_trace w' ++ trace_of (main_remounts false w')).
Proof.
  intros rc w'. rewrite main_run. fold rc w'.
  destruct (kernel_readonly_probe (kernel w') "/"); unfold trace_of; cbn [fst snd].
  - by rewrite app_nil_r.
  - done.
Qed.

Lemma after_prelude_files (w : World K) : file_at (after_prelude w).2 = file_at w.
Proof. unfold after_prelude. by destruct (kernel_mount _ _ _ _). Qed.

(** The status of the remount sequence under the policy [main] passes. *)
Lemma main_remounts_false_status (w : World K) :
  result_of (main_remounts false w)
  = Exited (if bool_decide (fatal_remounts (trace_of (main_remounts false w)) = [])
            then EXIT_SUCCESS
            else EXIT_FAILURE).
Proof.
  rewrite main_remounts_false_run.
  pose proof (do_remount_ends "/sysroot" true w) as H1.
  pose proof (do_remount_ends "/var" true (world_of (do_remount "/sysroot" true w))) as H2.
  cbv zeta in *.
  destruct (do_remount "/sysroot" true w) as [[t1 r1] w1].
  unfold result_of, trace_of, world_of in *. cbn [fst snd] in *.
  destruct (do_remount "/var" true w1) as [[t2 r2] w2]. cbn [fst snd] in *.
  destruct H1 as [(-> & Hf1 & _)|(e1 & _ & -> & Hf1 & _)]; cbn [fst snd];
    [|by rewrite Hf1].
  rewrite fatal_remounts_app, Hf1. cbn [app].
  by destruct H2 as [(-> & -> & _)|(e2 & _ & -> & -> & _)].
Qed.

(** X1. [main] never returns to its caller: it exits with [EXIT_FAILURE]
    when a remount was refused with an errno other than [EINVAL], and with
    [EXIT_SUCCESS] in every other run.  A failure of the [MS_PRIVATE] mount
    at the start, a target that cannot be examined and a remount refused
    with [EINVAL] all leave the status at success. *)
Theorem main_exit_status (w : World K) :
  result_of (main w)
  = Exited (if bool_decide (fatal_remounts (trace_of (main w)) = [])
            then EXIT_SUCCESS
            else EXIT_FAILURE).
Proof.
  rewrite main_trace. rewrite main_run.
  set (rc := (after_prelude w).1). set (w' := (after_prelude w).2).
  destruct (prelude_observed rc (kernel_readonly_probe (kernel w') "/")) as (Hp & _).
  destruct (config_no_mounts w') as (Hc & _).
  rewrite fatal_remounts_app, Hp. cbn [app].
  destruct (kernel_readonly_probe (kernel w') "/"); unfold result_of at 1;
    cbn [fst snd]; [done|].
  rewrite fatal_remounts_app, Hc. cbn [app].
  apply main_remounts_false_status.
Qed.

Lemma marker_steps_app t1 t2 :
  marker_steps (t1 ++ t2) = (marker_steps t1 + marker_steps t2)%nat.
Proof. unfold marker_steps. by rewrite omap_app, length_app. Qed.

Lemma readonly_probes_app t1 t2 :
  readonly_probes (t1 ++ t2) = readonly_probes t1 ++ readonly_probes t2.
Proof. apply omap_app. Qed.

Lemma main_remounts_false_quiet (w : World K) :
  readonly_probes (trace_of (main_remounts false w)) = []
  ∧ marker_steps (trace_of (main_remounts false w)) = 0%nat.
Proof.
  rewrite main_remounts_false_run.
  pose proof (do_remount_quiet "/sysroot" true w) as (Hp1 & Hm1).
  pose proof (do_remount_quiet "/var" true (world_of (do_remount "/sysroot" true w)))
    as (Hp2 & Hm2).
  cbv zeta.
  destruct (do_remount "/sysroot" true w) as [[t1 r1] w1].
  unfold result_of, trace_of, world_of in *. cbn [fst snd] in *.
  destruct r1; cbn [fst snd]; [|done].
  by rewrite readonly_probes_app, marker_steps_app, Hp1, Hp2, Hm1, Hm2.
Qed.

(** X2. Every run of [main] starts the same way: the marker step, then the
    [MS_REC | MS_PRIVATE] mount on [/sysroot], a warning on standard error
    if and only if that mount failed, and then the probe of the root
    filesystem, whatever the mount returned.  The marker step and the probe
    happen once each and nowhere else in the run. *)
Theorem main_starts_with_marker_and_private_mount (w : World K) :
  let rc := (after_prelude w).1 in
  let root_ro := kernel_readonly_probe (kernel (after_prelude w).2) "/" in
  ([EvTouchRunOstree; EvMount "none" "/sysroot" (Z.lor MS_REC MS_PRIVATE) rc]
   ++ match rc with
      | Some errno => [EvStderr "warning: While remounting /sysroot MS_PRIVATE" errno]
      | None => []
      end
   ++ [EvReadonlyProbe "/" root_ro]) `prefix_of` trace_of (main w)
  ∧ marker_steps (trace_of (main w)) = 1%nat
  ∧ readonly_probes (trace_of (main w)) = [("/", root_ro)].
Proof.
  intros rc root_ro. rewrite main_trace. fold rc root_ro.
  destruct (prelude_observed rc root_ro) as (_ & _ & _ & _ & _ & Hm & _).
  split; [by apply prefix_app_r|].
  rewrite marker_steps_app, Hm, prelude_probes.
  destruct root_ro; [done|].
  destruct (config_observed (after_prelude w).2) as (_ & _ & _ & Hp & Hc & _).
  destruct (main_remounts_false_quiet (after_prelude w).2) as (Hp' & Hm').
  by rewrite marker_steps_app, readonly_probes_app, Hp, Hc, Hp', Hm'.
Qed.

(** X3. A target that [lstat] or [statvfs] cannot examine is passed over in
    silence: [do_remount] returns, issues no [mount] call, writes nothing to
    either stream and leaves the machine as it was. *)
Theorem do_remount_unexaminable (target : string) (writable : bool) (w : World K) :
  kernel_lstat (kernel w) target = None ∨ kernel_statvfs (kernel w) target = None →
  result_of (do_remount target writable w) = Returned ()
  ∧ mount_calls (trace_of (do_remount target writable w)) = []
  ∧ stdout_of (trace_of (do_remount target writable w)) = []
  ∧ stderr_of (trace_of (do_remount target writable w)) = []
  ∧ world_of (do_remount target writable w) = w.
Proof.
  intros Hx.
  assert (remount_needed w target writable = false) as Hn.
  { unfold remount_needed. destruct Hx as [-> | ->]; [done|].
    by destruct (kernel_lstat (kernel w) target). }
  destruct (do_remount_run target writable w); try done; congruence.
Qed.

(** X4. What [do_remount] comes to is decided by four things.  It applies
    the remount exactly when the target can be examined, is no symbolic
    link, is not in the wanted state, and the kernel accepts the call; with
    the first three and a refusal it is a no-op for [EINVAL] and fatal, with
    [EXIT_FAILURE], for any other errno; in every other case it is a no-op. *)
Theorem do_remount_outcome (target : string) (writable : bool) (w : World K) :
  outcome_of (do_remount target writable w)
  = if remount_needed w target writable
    then match (kernel_mount (kernel w) target target (mnt_flags writable)).1 with
         | None => Applied
         | Some errno => if errno =? EINVAL then NoOp else FatalError EXIT_FAILURE
         end
    else NoOp.
Proof.
  destruct (remount_needed w target writable) eqn:Hn;
    [|by destruct (do_remount_not_needed _ _ _ Hn) as (_ & _ & _ & ?)].
  pose proof (do_remount_mount_calls target writable w) as Hc.
  rewrite Hn in Hc. revert Hc.
  destruct (do_remount_run target writable w)
    as [Hl|m Hl Hs|m Hl Hs Hv|m f Hl Hs Hv Hw
        |m f k' _ _ _ Hm|m f e k' _ _ _ Hm He|m f k' _ _ _ Hm];
    intros Hc; try done; rewrite Hm; cbn [fst].
  - by destruct writable.
  - by apply Z.eqb_neq in He as ->.
  - by destruct writable.
Qed.

Lemma do_remount_targets_visited target writable (w : World K) :
  targets_visited (trace_of (do_remount target writable w)) = [target].
Proof. by destruct (do_remount_run target writable w). Qed.

(** X5. In the branch of the remount sequence for a read-only policy, a
    bind mount of [/etc] that fails ends the process whatever the errno,
    [EINVAL] included: the status is [EXIT_FAILURE], the last two events are
    the failed call and its message, and neither [/etc] nor [/var] is
    examined. *)
Theorem etc_bind_failure_is_fatal (w : World K) (errno : Z) :
  let x1 := do_remount "/sysroot" false w in
  let x := main_remounts true w in
  result_of x1 = Returned () →
  (kernel_mount (kernel (world_of x1)) "/etc" "/etc" MS_BIND).1 = Some errno →
  result_of x = Exited EXIT_FAILURE
  ∧ trace_of x
    = trace_of x1
      ++ [EvMount "/etc" "/etc" MS_BIND (Some errno);
          EvStderr "failed to make /etc a bind mount" errno]
  ∧ targets_visited (trace_of x) = ["/sysroot"].
Proof.
  intros x1 x. subst x1 x.
  pose proof (do_remount_targets_visited "/sysroot" false w) as Hv.
  unfold main_remounts, bind, mount, err. simpl.
  destruct (do_remount "/sysroot" false w) as [[t1 r1] w1].
  unfold result_of, trace_of, world_of in *. cbn [fst snd] in *.
  intros -> Hm.
  destruct (kernel_mount (kernel w1) "/etc" "/etc" MS_BIND) as [rc k].
  cbn [fst] in Hm. subst rc. cbn [fst snd].
  split; [done|]. split; [done|].
  unfold targets_visited in *. by rewrite omap_app, Hv.
Qed.

(** X6. Standard output of a whole run of [main] holds, in this order, the
    notice that the configured policy is ignored (when the root is writable
    and the key file asks for a read-only sysroot) and then one line for
    each remount that was applied; nothing else is ever printed there. *)
Theorem main_stdout (w : World K) :
  stdout_of (trace_of (main w))
  = (if kernel_readonly_probe (kernel (after_prelude w).2) "/"
     then []
     else config_notice w)
    ++ (applied_line <$> applied_remounts (trace_of (main w))).
Proof.
  rewrite main_trace.
  set (rc := (after_prelude w).1). set (w' := (after_prelude w).2).
  destruct (prelude_observed rc (kernel_readonly_probe (kernel w') "/"))
    as (_ & Ha & Ho & _).
  rewrite stdout_of_app, applied_remounts_app, Ho, Ha. cbn [app].
  destruct (kernel_readonly_probe (kernel w') "/"); [done|].
  destruct (config_observed w') as (_ & Hn & _).
  destruct (config_no_mounts w') as (_ & Hc & _).
  rewrite stdout_of_app, applied_remounts_app, Hn, Hc. cbn [app].
  rewrite main_remounts_stdout. unfold config_notice.
  subst w'. by rewrite after_prelude_files.
Qed.

Lemma main_remounts_false_mount_calls (w : World K) :
  Forall (λ call, has_flag call.1.2 MS_RDONLY = false
                  ∧ (call.1.1.2 = "/sysroot" ∨ call.1.1.2 = "/var"))
    (mount_calls (trace_of (main_remounts false w)))
  ∧ (length (mount_calls (trace_of (main_remounts false w))) ≤ 2)%nat.
Proof.
  rewrite main_remounts_false_run.
  pose proof (do_remount_mount_calls "/sysroot" true w) as H1.
  pose proof (do_remount_mount_calls "/var" true
                (world_of (do_remount "/sysroot" true w))) as H2.
  cbv zeta.
  destruct (do_remount "/sysroot" true w) as [[t1 r1] w1].
  unfold result_of, trace_of, world_of in *. cbn [fst snd] in *.
  destruct r1; cbn [fst snd]; rewrite ?mount_calls_app, ?H1, ?H2;
    destruct (remount_needed w "/sysroot" true);
    try destruct (remount_needed w1 "/var" true); cbn [app length];
    (split; [repeat constructor; by eauto | lia]).
Qed.

(** X8. [main] never asks for anything to become read-only: none of its
    [mount] calls carries [MS_RDONLY].  It issues at most three [mount]
    calls, and their mount points are [/sysroot] and [/var] only. *)
Theorem main_never_mounts_readonly (w : World K) :
  Forall (λ call, has_flag call.1.2 MS_RDONLY = false
                  ∧ (call.1.1.2 = "/sysroot" ∨ call.1.1.2 = "/var"))
    (mount_calls (trace_of (main w)))
  ∧ (length (mount_calls (trace_of (main w))) ≤ 3)%nat.
Proof.
  rewrite main_trace.
  set (rc := (after_prelude w).1). set (w' := (after_prelude w).2).
  rewrite mount_calls_app, prelude_mount_calls, length_app. cbn [length].
  destruct (kernel_readonly_probe (kernel w') "/").
  - split; [|cbn; lia]. repeat constructor; by eauto.
  - destruct (config_observed w') as (Hc & _).
    destruct (main_remounts_false_mount_calls w') as (Hf & Hl).
    rewrite mount_calls_app, Hc. cbn [app].
    split; [|lia]. apply Forall_cons. split; [|done]. split; [done|by left].
Qed.

Lemma main_remounts_false_stderr (w : World K) :
  stderr_of (trace_of (main_remounts false w))
  = (λ failure, (remount_error failure.1 true, failure.2))
      <$> fatal_remounts (trace_of (main_remounts false w))
  ∧ (length (fatal_remounts (trace_of (main_remounts false w))) ≤ 1)%nat.
Proof.
  rewrite main_remounts_false_run.
  pose proof (do_remount_ends "/sysroot" true w) as H1.
  pose proof (do_remount_ends "/var" true (world_of (do_remount "/sysroot" true w))) as H2.
  cbv zeta in *.
  destruct (do_remount "/sysroot" true w) as [[t1 r1] w1].
  unfold result_of, trace_of, world_of in *. cbn [fst snd] in *.
  destruct H1 as [(-> & Hf1 & He1)|(e1 & _ & -> & Hf1 & He1 & _)]; cbn [fst snd].
  - rewrite stderr_of_app, fatal_remounts_app, Hf1, He1. cbn [app].
    destruct H2 as [(_ & -> & ->)|(e2 & _ & _ & -> & -> & _)]; cbn; by split; [|lia].
  - rewrite Hf1, He1. cbn. by split; [|lia].
Qed.

(** X9. Standard error of a whole run of [main] holds the warning about the
    [MS_PRIVATE] mount, if that mount failed, and after it the message
    [failed to remount(rw) <target>] for a remount refused with an errno
    other than [EINVAL]; there is at most one such message and nothing else. *)
Theorem main_stderr (w : World K) :
  stderr_of (trace_of (main w))
  = private_warning (after_prelude w).1
    ++ ((λ failure, ("failed to remount(rw) " +:+ failure.1, failure.2))
          <$> fatal_remounts (trace_of (main w)))
  ∧ (length (fatal_remounts (trace_of (main w))) ≤ 1)%nat.
Proof.
  rewrite main_trace.
  set (rc := (after_prelude w).1). set (w' := (after_prelude w).2).
  destruct (prelude_observed rc (kernel_readonly_probe (kernel w') "/"))
    as (Hf & _ & _ & He & _).
  rewrite stderr_of_app, fatal_remounts_app, Hf, He. cbn [app].
  destruct (kernel_readonly_probe (kernel w') "/").
  - cbn. by split; [|lia].
  - destruct (config_observed w') as (_ & _ & Hc & _).
    destruct (config_no_mounts w') as (Hn & _).
    destruct (main_remounts_false_stderr w') as (Hs & Hl).
    rewrite stderr_of_app, fatal_remounts_app, Hc, Hn. cbn [app].
    by rewrite Hs.
Qed.
End Further.

(** ** What a run leaves behind

    As for the repetition of [do_remount], this depends on the kernel: a
    remount that succeeds is assumed to leave the target with the read-only
    flag it asked for. *)

Section Settling.
Context {K : Type} `{!MountBackend K}.

Hypothesis remount_takes_effect :
  ∀ (k k' : K) (target : string) (flags f : Z),
    kernel_mount k target target flags = (None, k') →
    has_flag flags MS_REMOUNT = true →
    kernel_statvfs k' target = Some f →
    (Z.land f ST_RDONLY =? 0) = negb (has_flag flags MS_RDONLY).

Lemma do_remount_settles_on target writable (w : World K) (m f : Z) :
  kernel_lstat (kernel w) target = Some m →
  S_ISLNK m = false →
  failed_mounts_on target (trace_of (do_remount target writable w)) = [] →
  kernel_statvfs (kernel (world_of (do_remount target writable w))) target = Some f →
  (Z.land f ST_RDONLY =? 0) = writable.
Proof.
  intros Hl Hs.
  destruct (do_remount_run target writable w)
    as [Hl'|m' Hl' Hs'|m' Hl' Hs' Hv'|m' f' Hl' Hs' Hv' Hw'
        |m' f' k' _ _ _ Hm|m' f' e k' _ _ _ Hm He|m' f' k' _ _ _ Hm];
    unfold failed_mounts_on, failed_mounts, mount_calls, trace_of, world_of;
    intros Hf Hv; simpl in Hf, Hv;
    rewrite ?bool_decide_eq_true_2 in Hf by done; try congruence.
  rewrite (remount_takes_effect _ _ _ _ _ Hm (mnt_flags_remount writable) Hv).
  destruct (mnt_flags_bits writable) as (_ & _ & _ & ->).
  apply negb_involutive.
Qed.

(** X7. [do_remount] reaches what it is asked for.  When the target is no
    symbolic link and no [mount] call of the run failed, then afterwards a
    [statvfs] of the target that succeeds shows it writable exactly when
    writable was wanted. *)
Theorem do_remount_settles (target : string) (writable : bool) (w : World K) (m f : Z) :
  kernel_lstat (kernel w) target = Some m →
  S_ISLNK m = false →
  failed_mounts (trace_of (do_remount target writable w)) = [] →
  kernel_statvfs (kernel (world_of (do_remount target writable w))) target = Some f →
  (Z.land f ST_RDONLY =? 0) = writable.
Proof.
  intros Hl Hs Hf. apply (do_remount_settles_on _ _ _ m); try done.
  unfold failed_mounts_on. by rewrite Hf.
Qed.

(** X10. [main] leaves [/var] writable.  In a run that examined [/var],
    found it to be no symbolic link and had no [mount] call on [/var] fail,
    a [statvfs] of [/var] after the run that succeeds shows no read-only
    flag. *)
Theorem main_leaves_var_writable (w : World K) (m f : Z) :
  lstat_results "/var" (trace_of (main w)) = [Some m] →
  S_ISLNK m = false →
  failed_mounts_on "/var" (trace_of (main w)) = [] →
  kernel_statvfs (kernel (world_of (main w))) "/var" = Some f →
  Z.land f ST_RDONLY = 0.
Proof.
  rewrite main_trace, main_run.
  set (rc := (after_prelude w).1). set (w' := (after_prelude w).2).
  destruct (prelude_observed rc (kernel_readonly_probe (kernel w') "/"))
    as (_ & _ & _ & _ & Hpf & _ & Hpl).
  rewrite lstat_results_app, failed_mounts_on_app, Hpl, Hpf. cbn [app].
  destruct (kernel_readonly_probe (kernel w') "/"); [done|].
  destruct (config_observed w') as (_ & _ & _ & _ & _ & Hcl).
  destruct (config_no_mounts w') as (_ & _ & Hcf).
  rewrite lstat_results_app, failed_mounts_on_app, Hcl, Hcf. cbn [app].
  unfold world_of at 1. cbn [snd]. rewrite main_remounts_false_run.
  pose proof (do_remount_lstat_results "/var" "/sysroot" true w') as Hl1.
  pose proof (do_remount_lstat_results "/var" "/var" true
                (world_of (do_remount "/sysroot" true w'))) as Hl2.
  pose proof (do_remount_settles_on "/var" true
                (world_of (do_remount "/sysroot" true w')) m f) as Hset.
  cbv zeta.
  destruct (do_remount "/sysroot" true w') as [[t1 r1] w1].
  unfold result_of, trace_of, world_of in *. cbn [fst snd] in *.
  rewrite bool_decide_eq_false_2 in Hl1 by done.
  rewrite bool_decide_eq_true_2 in Hl2 by done.
  destruct r1; cbn [fst snd]; [|by rewrite Hl1].
  rewrite lstat_results_app, failed_mounts_on_app, Hl1, Hl2. cbn [app].
  intros [= Hl] Hs [_ Hf]%app_eq_nil Hv.
  apply Z.eqb_eq. by apply Hset.
Qed.
End Settling.

(** ** The order of the remount sequence *)

Section Order.
Context {K : Type} `{!MountBackend K}.

(** The steps one [do_remount] shows: the target is taken up, and the
    remount, when it is called for, asks for the wanted writability. *)
Lemma do_remount_steps target writable (w : World K) :
  steps (trace_of (do_remount target writable w))
  = Visit target
    :: (if remount_needed w target writable then [Remount target writable] else []).
Proof.
  destruct (remount_needed w target writable) eqn:Hn.
  - pose proof (do_remount_mount_calls target writable w) as Hc.
    rewrite Hn in Hc. revert Hc.
    destruct (do_remount_run target writable w); intros Hc; try done;
      by destruct writable.
  - destruct (do_remount_run target writable w); try done; congruence.
Qed.

(** The whole remount sequence as the runs of [do_remount] it is made of. *)
Lemma main_remounts_run (ro : bool) (w : World K) :
  let x1 := do_remount "/sysroot" (negb ro) w in
  let bound := kernel_mount (kernel (world_of x1)) "/etc" "/etc" MS_BIND in
  let x2 := do_remount "/etc" true (mkWorld (files (world_of x1)) bound.2) in
  let x3 := do_remount "/var" true (if ro then world_of x2 else world_of x1) in
  let finish := match result_of x3 with
                | Exited status => Exited status
                | Returned _ => Exited EXIT_SUCCESS
                end in
  main_remounts ro w
  = match result_of x1 with
    | Exited status => (trace_of x1, Exited status, world_of x1)
    | Returned _ =>
        if ro then
          match bound.1 with
          | Some errno =>
              (trace_of x1
               ++ [EvMount "/etc" "/etc" MS_BIND (Some errno);
                   EvStderr "failed to make /etc a bind mount" errno],
               Exited EXIT_FAILURE,
               mkWorld (files (world_of x1)) bound.2)
          | None =>
              match result_of x2 with
              | Exited status =>
                  (trace_of x1 ++ EvMount "/etc" "/etc" MS_BIND None :: trace_of x2,
                   Exited status, world_of x2)
              | Returned _ =>
                  (trace_of x1
                   ++ EvMount "/etc" "/etc" MS_BIND None :: trace_of x2 ++ trace_of x3,
                   finish, world_of x3)
              end
          end
        else (trace_of x1 ++ trace_of x3, finish, world_of x3)
    end.
Proof.
  unfold main_remounts, bind, mount, err, exit, ret. destruct ro; simpl.
  - destruct (do_remount "/sysroot" false w) as [[t1 [[]|s1]] w1]; simpl; [|done].
    destruct (kernel_mount (kernel w1) "/etc" "/etc" MS_BIND) as [[errno|] k]; simpl;
      [done|].
    destruct (do_remount "/etc" true _) as [[t2 [[]|s2]] w2]; simpl; [|done].
    destruct (do_remount "/var" true w2) as [[t3 [[]|s3]] w3]; simpl;
      by rewrite ?app_nil_r.
  - destruct (do_remount "/sysroot" true w) as [[t1 [[]|s1]] w1]; simpl; [|done].
    destruct (do_remount "/var" true w1) as [[t3 [[]|s3]] w3]; simpl;
      by rewrite ?app_nil_r.
Qed.

(** C8. The remount sequence is, for either value of the policy, exactly
    this: [do_remount] on [/sysroot] with the writability the policy asks
    for; under a read-only policy then the bind mount of [/etc] onto itself
    and, only after it has succeeded, [do_remount] on [/etc] as writable;
    last [do_remount] on [/var] as writable, and after it only the [exit].
    Each step is reached when those before it returned, the run stops where
    one of them fails, and nothing else happens in between.  Each
    [do_remount] starts by taking up its target and asks in its remount for
    the writability it was given, so that the steps of every run lie in the
    order of [plan]. *)
Theorem remount_order (ro : bool) (w : World K) :
  let x := main_remounts ro w in
  let x1 := do_remount "/sysroot" (negb ro) w in
  let bound := kernel_mount (kernel (world_of x1)) "/etc" "/etc" MS_BIND in
  let x2 := do_remount "/etc" true (mkWorld (files (world_of x1)) bound.2) in
  let x3 := do_remount "/var" true (if ro then world_of x2 else world_of x1) in
  let finish := match result_of x3 with
                | Exited status => Exited status
                | Returned _ => Exited EXIT_SUCCESS
                end in
  x = match result_of x1 with
      | Exited status => (trace_of x1, Exited status, world_of x1)
      | Returned _ =>
          if ro then
            match bound.1 with
            | Some errno =>
                (trace_of x1
                 ++ [EvMount "/etc" "/etc" MS_BIND (Some errno);
                     EvStderr "failed to make /etc a bind mount" errno],
                 Exited EXIT_FAILURE,
                 mkWorld (files (world_of x1)) bound.2)
            | None =>
                match result_of x2 with
                | Exited status =>
                    (trace_of x1 ++ EvMount "/etc" "/etc" MS_BIND None :: trace_of x2,
                     Exited status, world_of x2)
                | Returned _ =>
                    (trace_of x1
                     ++ EvMount "/etc" "/etc" MS_BIND None :: trace_of x2 ++ trace_of x3,
                     finish, world_of x3)
                end
            end
          else (trace_of x1 ++ trace_of x3, finish, world_of x3)
      end
  ∧ (∀ target writable (w0 : World K),
       steps (trace_of (do_remount target writable w0))
       = Visit target
         :: (if remount_needed w0 target writable then [Remount target writable] else []))
  ∧ steps (trace_of x) `sublist_of` plan ro
  ∧ (required ro `sublist_of` steps (trace_of x) ∨ result_of x = Exited EXIT_FAILURE)
  ∧ plan ro
    = [Visit "/sysroot"; Remount "/sysroot" (negb ro)]
      ++ (if ro then [BindMount "/etc"; Visit "/etc"; Remount "/etc" true] else [])
      ++ [Visit "/var"; Remount "/var" true].
Proof.
  intros x x1 bound x2 x3 finish.
  split; [apply main_remounts_run|].
  split; [apply do_remount_steps|].
  split; [apply main_remounts_steps|]. split; [|done].
  destruct (main_remounts_ends ro w) as [[_ ?]|[? _]]; auto.
Qed.

(** C9. In every run of [main] the policy that reaches the remount
    sequence is [false], whatever the configuration holds.  A run whose
    probe finds the root read-only ends there; every other run reads the
    configuration and then is [do_remount] on [/sysroot] asking for
    writable, [do_remount] on [/var] asking for writable, and the [exit].
    The bind mount of [/etc] and the remount of [/etc] are in no run: no
    [mount] call has [/etc] as its target and [/etc] is never examined. *)
Theorem sysroot_policy_is_never_readonly (w : World K) :
  let rc := (after_prelude w).1 in
  let w' := (after_prelude w).2 in
  let y := main_remounts false w' in
  let x1 := do_remount "/sysroot" true w' in
  let x3 := do_remount "/var" true (world_of x1) in
  (∀ w0 : World K, result_of (sysroot_is_configured_ro w0) = Returned false)
  ∧ main w
    = (if kernel_readonly_probe (kernel w') "/"
       then (prelude_trace rc true, Exited EXIT_SUCCESS, w')
       else (prelude_trace rc false ++ config_trace w' ++ trace_of y,
             result_of y, world_of y))
  ∧ y = match result_of x1 with
        | Exited status => (trace_of x1, Exited status, world_of x1)
        | Returned _ =>
            (trace_of x1 ++ trace_of x3,
             match result_of x3 with
             | Exited status => Exited status
             | Returned _ => Exited EXIT_SUCCESS
             end,
             world_of x3)
        end
  ∧ steps (trace_of (main w)) `sublist_of` plan false
  ∧ plan false
    = [Visit "/sysroot"; Remount "/sysroot" true; Visit "/var"; Remount "/var" true]
  ∧ Forall (λ call, call.1.1.2 ≠ "/etc") (mount_calls (trace_of (main w)))
  ∧ "/etc" ∉ targets_visited (trace_of (main w)).
Proof.
  intros rc w' y x1 x3.
  split; [intros w0; by rewrite sysroot_is_configured_ro_run|].
  split; [apply main_run|].
  split; [apply main_remounts_false_run|].
  destruct (main_bounded_by_writable_plan w) as (_ & Hs & Hp & Hm & _).
  split; [done|]. split; [done|]. split; [done|].
  intros Hin.
  assert (Visit "/etc" ∈ steps (trace_of (main w))) as Hv.
  { unfold targets_visited in Hin. apply list_elem_of_omap in Hin as (e & He & Hp').
    unfold steps. apply list_elem_of_omap. exists e. split; [done|].
    destruct e; try done. by simplify_eq/=. }
  apply (elem_of_sublist _ _ _ Hv) in Hs.
  rewrite Hp in Hs. by inversion_clear Hs as [|?? Hs1]; repeat
    (match goal with H : _ ∈ _ |- _ => inversion_clear H end).
Qed.
End Order.

(** ** The further properties on concrete machines *)

Lemma do_remount_unexaminable_witness :
  (kernel_lstat (kernel Fake.booting) "/boot" = None
   ∨ kernel_statvfs (kernel Fake.booting) "/boot" = None)
  ∧ result_of (do_remount "/boot" true Fake.booting) = Returned ()
  ∧ mount_calls (trace_of (do_remount "/boot" true Fake.booting)) = []
  ∧ stdout_of (trace_of (do_remount "/boot" true Fake.booting)) = []
  ∧ stderr_of (trace_of (do_remount "/boot" true Fake.booting)) = []
  ∧ world_of (do_remount "/boot" true Fake.booting) = Fake.booting.
Proof.
  split; [left; vm_compute; reflexivity|].
  apply (do_remount_unexaminable "/boot" true Fake.booting).
  left; vm_compute; reflexivity.
Defined.

Lemma etc_bind_failure_is_fatal_witness :
  let x1 := do_remount "/sysroot" false Fake.not_mounted in
  let x := main_remounts true Fake.not_mounted in
  result_of x1 = Returned ()
  ∧ (kernel_mount (kernel (world_of x1)) "/etc" "/etc" MS_BIND).1 = Some Fake.ENOENT
  ∧ result_of x = Exited EXIT_FAILURE
  ∧ trace_of x
    = trace_of x1
      ++ [EvMount "/etc" "/etc" MS_BIND (Some Fake.ENOENT);
          EvStderr "failed to make /etc a bind mount" Fake.ENOENT]
  ∧ targets_visited (trace_of x) = ["/sysroot"].
Proof.
  split; [vm_compute; reflexivity|]. split; [vm_compute; reflexivity|].
  apply (etc_bind_failure_is_fatal Fake.not_mounted Fake.ENOENT);
    vm_compute; reflexivity.
Defined.

Lemma do_remount_settles_witness :
  kernel_lstat (kernel Fake.booting) "/sysroot" = Some 16877
  ∧ S_ISLNK 16877 = false
  ∧ failed_mounts (trace_of (do_remount "/sysroot" true Fake.booting)) = []
  ∧ kernel_statvfs (kernel (world_of (do_remount "/sysroot" true Fake.booting))) "/sysroot"
    = Some 0
  ∧ (Z.land 0 ST_RDONLY =? 0) = true.
Proof.
  split; [vm_compute; reflexivity|]. split; [vm_compute; reflexivity|].
  split; [vm_compute; reflexivity|]. split; [vm_compute; reflexivity|].
  apply (do_remount_settles FakeLaws.remount_takes_effect
           "/sysroot" true Fake.booting 16877 0); vm_compute; reflexivity.
Defined.

Lemma main_leaves_var_writable_witness :
  lstat_results "/var" (trace_of (main Fake.booting)) = [Some 16877]
  ∧ S_ISLNK 16877 = false
  ∧ failed_mounts_on "/var" (trace_of (main Fake.booting)) = []
  ∧ kernel_statvfs (kernel (world_of (main Fake.booting))) "/var" = Some 0
  ∧ Z.land 0 ST_RDONLY = 0.
Proof.
  split; [vm_compute; reflexivity|]. split; [vm_compute; reflexivity|].
  split; [vm_compute; reflexivity|]. split; [vm_compute; reflexivity|].
  apply (main_leaves_var_writable FakeLaws.remount_takes_effect
           Fake.booting 16877 0); vm_compute; reflexivity.
Defined.

